(** * draw_scene.cc: a shallow embedding of the scene driver and its input callbacks

    The program is a GLFW/OpenGL viewer.  Calls into GLFW, OpenGL and the
    camera controller are recorded as events of a trace; the program's own
    control flow (branches, loops, index checks of [std::vector::at]) is
    written out.  Float and double values are modelled as rationals [Q]. *)

From Stdlib Require Import ZArith QArith Qround Qabs Lqa List String Bool Lia.
Import ListNotations.
Open Scope Z_scope.

(** ** GLFW constants (glfw3.h) *)

Definition GLFW_RELEASE : Z := 0.
Definition GLFW_PRESS : Z := 1.
Definition GLFW_KEY_A : Z := 65.
Definition GLFW_KEY_D : Z := 68.
Definition GLFW_KEY_S : Z := 83.
Definition GLFW_KEY_W : Z := 87.
Definition GLFW_KEY_ESCAPE : Z := 256.
Definition GLFW_KEY_UNKNOWN : Z := -1.

(** ** C++ failures that matter here *)

(** A dereference of a null pointer, or [std::out_of_range] thrown by
    [std::vector::at]. *)
Inductive exn := NullPointer | OutOfRange.

Inductive outcome (A : Type) := Ok (a : A) | Throw (e : exn).
Arguments Ok {A} a.
Arguments Throw {A} e.

Definition obind {A B} (m : outcome A) (f : A -> outcome B) : outcome B :=
  match m with Ok a => f a | Throw e => Throw e end.

Notation "x <- m ;; k" := (obind m (fun x => k)) (at level 61, m at next level, right associativity).

(** [l[n] = a], leaving [l] as it is when [n] is past its end. *)
Fixpoint replace_nth {A} (l : list A) (n : nat) (a : A) : list A :=
  match l, n with
  | [], _ => []
  | _ :: t, O => a :: t
  | h :: t, S n' => h :: replace_nth t n' a
  end.

(** [std::vector<bool>::at] with an [int] index: a negative index becomes a
    huge [size_t], so both sides are checked. *)
Definition vector_at (v : list bool) (i : Z) : outcome bool :=
  if (0 <=? i) && (i <? Z.of_nat (List.length v)) then Ok (nth (Z.to_nat i) v false)
  else Throw OutOfRange.

(** [v.at(i) = b]. *)
Definition vector_at_set (v : list bool) (i : Z) (b : bool) : outcome (list bool) :=
  if (0 <=? i) && (i <? Z.of_nat (List.length v)) then Ok (replace_nth v (Z.to_nat i) b)
  else Throw OutOfRange.

(** Dereferencing [movement_vector_ptr]. *)
Definition deref (p : option (list bool)) : outcome (list bool) :=
  match p with Some v => Ok v | None => Throw NullPointer end.

(** ** Calls into the camera controller (camera_controller.cc is not in src/;
    its calls are recorded, not executed) *)

Inductive cam_call :=
| MoveFront | MoveBack | MoveLeft | MoveRight
| AddYawOffset (delta : Q) | AddPitchOffset (delta : Q) | AdjustZoom (delta : Q).

(** ** UpdateCameraPose (draw_scene.cc, lines 81-95) *)

Definition if_held (movement_vector_ptr : option (list bool)) (key : Z) (c : cam_call)
  : outcome (list cam_call) :=
  v <- deref movement_vector_ptr ;;
  held <- vector_at v key ;;
  Ok (if held then [c] else []).

Definition UpdateCameraPose (movement_vector_ptr : option (list bool))
  : outcome (list cam_call) :=
  w <- if_held movement_vector_ptr GLFW_KEY_W MoveFront ;;
  s <- if_held movement_vector_ptr GLFW_KEY_S MoveBack ;;
  a <- if_held movement_vector_ptr GLFW_KEY_A MoveLeft ;;
  d <- if_held movement_vector_ptr GLFW_KEY_D MoveRight ;;
  Ok (w ++ s ++ a ++ d).

(** ** KeyCallback (draw_scene.cc, lines 99-115)

    State: the window's should-close flag and [movement_vector_ptr]. *)

Definition KeyCallback (should_close : bool) (movement_vector_ptr : option (list bool))
  (key action : Z) : outcome (bool * option (list bool)) :=
  let should_close :=
    if (key =? GLFW_KEY_ESCAPE) && (action =? GLFW_PRESS) then true else should_close in
  if (0 <=? key) && (key <? 1024) then
    if action =? GLFW_PRESS then
      v <- deref movement_vector_ptr ;;
      v' <- vector_at_set v key true ;;
      Ok (should_close, Some v')
    else if action =? GLFW_RELEASE then
      v <- deref movement_vector_ptr ;;
      v' <- vector_at_set v key false ;;
      Ok (should_close, Some v')
    else Ok (should_close, movement_vector_ptr)
  else Ok (should_close, movement_vector_ptr).

(** The key callback run over a sequence of (key, action) events, each seeing
    the should-close flag and the pointer the previous one left. *)
Fixpoint key_events (should_close : bool) (movement_vector_ptr : option (list bool))
  (evs : list (Z * Z)) : outcome (bool * option (list bool)) :=
  match evs with
  | [] => Ok (should_close, movement_vector_ptr)
  | (key, action) :: evs' =>
      st <- KeyCallback should_close movement_vector_ptr key action ;;
      key_events (fst st) (snd st) evs'
  end.

(** A held-key vector of 1024 entries with exactly the keys [ks] held. *)
Definition held_keys (ks : list Z) : list bool :=
  map (fun k => existsb (Z.eqb (Z.of_nat k)) ks) (seq 0 1024).

(** ** MouseCallback (draw_scene.cc, lines 119-140)

    The function-local statics [last_x_position] and [last_y_position] are
    [int]s (zero-initialised) and [first_call] a [bool] (initially [true]).
    Storing a [double] into an [int] truncates toward zero; in
    [x_position - last_x_position] the [int] is converted back to [double]. *)

Record mouse_statics := {
  last_x_position : Z;
  last_y_position : Z;
  first_call : bool
}.

Definition mouse_statics_init : mouse_statics :=
  {| last_x_position := 0; last_y_position := 0; first_call := true |}.

(** The [double] to [int] conversion (truncation toward zero). *)
Definition double_to_int (d : Q) : Z :=
  if Qle_bool 0 d then Qfloor d else Qceiling d.

(** [rotation_sensitivity] is the value of
    [camera_controller_ptr->rotation_sensitivity()]. *)
Definition MouseCallback (rotation_sensitivity : Q) (st : mouse_statics)
  (x_position y_position : Q) : mouse_statics * list cam_call :=
  let st :=
    if first_call st then
      {| last_x_position := double_to_int x_position;
         last_y_position := double_to_int y_position;
         first_call := false |}
    else st in
  let yaw := (rotation_sensitivity * (x_position - inject_Z (last_x_position st)))%Q in
  let pitch := (rotation_sensitivity * (inject_Z (last_y_position st) - y_position))%Q in
  ({| last_x_position := double_to_int x_position;
      last_y_position := double_to_int y_position;
      first_call := first_call st |},
   [AddYawOffset yaw; AddPitchOffset pitch]).

(** Runs the callback over a sequence of cursor positions, collecting the
    camera-controller calls. *)
Fixpoint mouse_events (sens : Q) (st : mouse_statics) (ps : list (Q * Q))
  : mouse_statics * list cam_call :=
  match ps with
  | [] => (st, [])
  | (x, y) :: ps' =>
      let '(st1, c1) := MouseCallback sens st x y in
      let '(st2, c2) := mouse_events sens st1 ps' in
      (st2, c1 ++ c2)
  end.

(** ** ErrorCallback (draw_scene.cc, lines 77-79)

    [LOG(FATAL) << description] writes the description to the log and then
    aborts the process.  (A second function of the same name and signature is
    written at lines 195-197, printing to [std::cerr] only; the callback
    section of the file, which [main] registers by name, is the one below.) *)

Inductive process_effect :=
| LogFatal (msg : string)
| Abort.

Definition ErrorCallback (error : Z) (description : string) : list process_effect :=
  [LogFatal description; Abort].

(** ** Eigen matrices and the Model class

    An [Eigen::MatrixXf(rows, cols)] is uninitialised: it is kept as a list
    of columns, each a list of [rows] entries, [None] for an entry never
    assigned.  [m.block(r, c, h, 1) = vec] writes [vec] into column [c]
    from row [r] on. *)

Definition matrix := list (list (option Q)).

Definition MatrixXf (rows cols : nat) : matrix := repeat (repeat None rows) cols.

Fixpoint write_from (col : list (option Q)) (row : nat) (vals : list Q) : list (option Q) :=
  match vals with
  | [] => col
  | v :: vs => write_from (replace_nth col row (Some v)) (S row) vs
  end.

Definition block_assign (m : matrix) (row col : nat) (vals : list Q) : matrix :=
  replace_nth m col (write_from (nth col m []) row vals).

(** Entry [(r, c)] of a matrix. *)
Definition entry (m : matrix) (r c : nat) : option Q := nth r (nth c m []) None.

(** The three block assignments the source writes for one vertex:
    position at rows 0-2, color at rows 3-5, texel at rows 6-7 of column [c]. *)
Definition set_vertex (m : matrix) (c : nat) (position color : Q * Q * Q) (texel : Q * Q)
  : matrix :=
  let '(px, py, pz) := position in
  let '(cr, cg, cb) := color in
  let '(tu, tv) := texel in
  let m := block_assign m 0 c [px; py; pz] in
  let m := block_assign m 3 c [cr; cg; cb] in
  block_assign m 6 c [tu; tv].

(** [wvu::Model] (model.h is not in src/): the constructor stores its four
    arguments. *)
Record Model := {
  model_scale : Q * Q * Q;
  model_translation : Q * Q * Q;
  model_vertices : matrix;
  model_indices : list Z
}.

(** ** ConstructModels (draw_scene.cc, lines 313-399) *)

Definition pyramid_indices : list Z :=
  [0; 3; 2;
   0; 2; 1;
   0; 4; 1;
   0; 3; 4;
   3; 2; 4;
   2; 1; 4].

Local Open Scope Q_scope.

Definition pyramid_vertices : matrix :=
  let vertices := MatrixXf 8 5 in
  (* Pryamid Vertex 0. *)
  let vertices := set_vertex vertices 0 (0, 0, 0) (1, 0, 0) (0, 0) in
  (* Pryamid Vertex 1. *)
  let vertices := set_vertex vertices 1 (2, 0, 0) (0, 1, 0) (0, 1) in
  (* Pryamid Vertex 2. *)
  let vertices := set_vertex vertices 2 (2, 0, 2) (0, 0, 1) (1, 0) in
  (* Pryamid Vertex 3. *)
  let vertices := set_vertex vertices 3 (0, 0, 2) (1, 0, 0) (1, 1) in
  (* Pryamid Vertex 3. *)
  set_vertex vertices 4 (1, 2, 1) (0, 1, 0) (0, 0).

Local Close Scope Q_scope.

Definition cube_indices : list Z :=
  [0; 3; 2;
   0; 2; 1;
   0; 4; 1;
   1; 5; 2;
   2; 6; 3;
   3; 7; 0;
   4; 5; 1;
   5; 6; 2;
   6; 7; 3;
   7; 4; 0;
   4; 7; 5;
   5; 7; 6].

Local Open Scope Q_scope.

Definition cube_vertices : matrix :=
  let vertices2 := MatrixXf 8 8 in
  (* Cube Vertex 0. *)
  let vertices2 := set_vertex vertices2 0 (0, 0, 0) (1, 0, 0) (0, 0) in
  (* Cube Vertex 1. *)
  let vertices2 := set_vertex vertices2 1 (2, 0, 0) (0, 1, 0) (0, 1) in
  (* Cube Vertex 2. *)
  let vertices2 := set_vertex vertices2 2 (2, 0, 2) (0, 0, 1) (1, 0) in
  (* Cube Vertex 3. *)
  let vertices2 := set_vertex vertices2 3 (0, 0, 2) (1, 0, 0) (1, 1) in
  (* Cube Vertex 4. *)
  let vertices2 := set_vertex vertices2 0 (0, 2, 0) (1, 0, 0) (0, 0) in
  (* Cube Vertex 5. *)
  let vertices2 := set_vertex vertices2 1 (2, 2, 0) (0, 1, 0) (0, 1) in
  (* Cube Vertex 6. *)
  let vertices2 := set_vertex vertices2 2 (2, 2, 2) (0, 0, 1) (1, 0) in
  (* Cube Vertex 7. *)
  set_vertex vertices2 3 (0, 2, 2) (1, 0, 0) (1, 1).

Local Close Scope Q_scope.

Definition pyramid : Model :=
  {| model_scale := (1, 1, 1); model_translation := (-3, -1, -15);
     model_vertices := pyramid_vertices; model_indices := pyramid_indices |}%Q.

Definition cube : Model :=
  {| model_scale := (1, 1, 1); model_translation := (1, -1, -15);
     model_vertices := cube_vertices; model_indices := cube_indices |}%Q.

(** ** Command-line flags (gflags)

    The flags this file declares with [DEFINE_string], with their defaults.
    [FLAGS cmdline name] is the value of [FLAGS_<name>] after
    [ParseCommandLineFlags]: the command-line value if one is given, the
    default otherwise; [None] for a name this file does not declare. *)

Definition declared_flags : list (string * string) :=
  [("texture1_filepath", "texture1.bmp"); ("texture2_filepath", "texture2.bmp")]%string.

Fixpoint lookup (k : string) (l : list (string * string)) : option string :=
  match l with
  | [] => None
  | (k', v) :: l' => if String.eqb k k' then Some v else lookup k l'
  end.

Definition FLAGS (cmdline : list (string * string)) (name : string) : option string :=
  match lookup name declared_flags with
  | None => None
  | Some default =>
      match lookup name cmdline with Some v => Some v | None => Some default end
  end.

(** ** Matrices handed to the draw calls

    transformations.h is not in src/: a projection matrix is kept as the
    call that builds it,
    [ComputePerspectiveProjectionMatrix(ConvertDegreesToRadians(fov_degrees),
    aspect, near, far)]. *)

Inductive mat4 :=
| Mat4Identity
| Mat4Perspective (fov_degrees aspect near far : Q).

Definition ComputePerspectiveProjectionMatrix (fov_degrees aspect near far : Q) : mat4 :=
  Mat4Perspective fov_degrees aspect near far.

(** ** Events of a run: calls into GLFW, OpenGL, CImg and the classes whose
    code is not in src/ *)

Inductive polygon_mode := GL_FILL | GL_LINE.

Inductive event :=
| EvGlfwInit
| EvSetErrorCallback
| EvWindowHints
| EvCreateWindow
| EvGlfwTerminate
| EvMakeContextCurrent
| EvSwapInterval (n : Z)
| EvSetKeyCallback
| EvGlewInit
| EvViewport
| EvConsole (msg : string)
| EvLogFatal (msg : string)
| EvUploadModel (i : nat)
| EvLoadTexture (path : option string)
| EvEnableDepthTest
| EvClearColor
| EvClear
| EvUseProgram (id : Z)
| EvPolygonMode (m : polygon_mode)
| EvDraw (i : nat) (projection view : mat4) (texture_id : Z)
| EvBindVertexArray (vao : Z)
| EvSwapBuffers
| EvPollEvents
| EvDeleteModel (i : nat)
| EvDestroyWindow
| EvCamera (c : cam_call).

(** ** CreateShaderProgram (draw_scene.cc, lines 273-286) *)

(** Modelled from the spec: [wvu::ShaderProgram::Create] and
    [shader_program_id()] (shader_program.h is not in src/).  Per the spec,
    Create compiles and links; on failure it returns false and no program
    identifier is assigned (the identifier stays 0); on success it returns
    true and assigns a non-zero identifier, here [id]. *)
Definition ShaderProgram_Create (compiles_and_links : bool) (id : positive) : bool * Z :=
  if compiles_and_links then (true, Zpos id) else (false, 0).

(** Returns the result, the program identifier and the console output. *)
Definition CreateShaderProgram (compiles_and_links : bool) (id : positive)
  : bool * Z * list event :=
  let '(created, shader_program_id) := ShaderProgram_Create compiles_and_links id in
  let log := if created then [] else [EvConsole "ERROR: <error_info_log>"%string] in
  if shader_program_id =? 0 then
    (false, shader_program_id,
     log ++ [EvConsole "ERROR: Could not create a shader program."%string])
  else (true, shader_program_id, log).

(** ** ConstructModels: the models, with one upload per model *)

Definition ConstructModels : list Model * list event :=
  ([pyramid; cube], [EvUploadModel 0; EvUploadModel 1]).

(** ** ClearTheFrameBuffer and RenderScene (draw_scene.cc, lines 264-308) *)

Definition ClearTheFrameBuffer : list event :=
  [EvEnableDepthTest; EvClearColor; EvClear].

(** [texture_ids[i]]; [main]'s array has two entries and two models are
    drawn, so only indices 0 and 1 are read. *)
Definition texture_at (texture_ids : list Z) (i : nat) : Z := nth i texture_ids 0.

Definition RenderScene (shader_program_id : Z) (projection view : mat4)
  (models_to_draw : list Model) (texture_ids : list Z) : list event :=
  ClearTheFrameBuffer ++
  [EvUseProgram shader_program_id; EvPolygonMode GL_LINE] ++
  map (fun i => EvDraw i projection view (texture_at texture_ids i))
      (seq 0 (List.length models_to_draw)) ++
  [EvBindVertexArray 0].

(** One iteration of the loop of [main] (lines 479-488). *)
Definition loop_body (shader_program_id : Z) (projection view : mat4)
  (models_to_draw : list Model) (texture_ids : list Z) : list event :=
  RenderScene shader_program_id projection view models_to_draw texture_ids ++
  [EvSwapBuffers; EvPollEvents].

(** ** The process around [main]: signals and the effects of callbacks *)

Definition SIGABRT : Z := 6.
Definition SIGSEGV : Z := 11.

(** How the process ends: [main] returns a value, or a signal kills it. *)
Inductive termination :=
| Returned (r : Z)
| Killed (signal : Z).

(** The effects of a callback, in order, up to an [Abort]: the log lines it
    writes and whether the process aborts. *)
Fixpoint perform (fx : list process_effect) : list event * bool :=
  match fx with
  | [] => ([], false)
  | LogFatal msg :: fx' => let '(log, aborted) := perform fx' in (EvLogFatal msg :: log, aborted)
  | Abort :: _ => ([], true)
  end.

(** The signal that ends the process when a callback fails: a write through a
    null pointer faults; an exception leaving a callback called from GLFW's C
    code reaches [std::terminate], which aborts. *)
Definition signal_of (ex : exn) : Z :=
  match ex with NullPointer => SIGSEGV | OutOfRange => SIGABRT end.

(** [static std::vector<bool>* movement_vector_ptr = nullptr;] (line 71):
    nothing in the file assigns it. *)
Definition movement_vector_ptr : option (list bool) := None.

(** The loop of [main] (lines 479-488).  [frames] is the number of polls
    after which the window system asks the window to close (its close
    button); [polls] lists, for each [glfwPollEvents], the (key, action)
    events it delivers, which GLFW passes in order to the registered
    [KeyCallback].  The should-close flag is the one [glfwWindowShouldClose]
    reads and [KeyCallback] sets.  Returns the signal that kills the process,
    if a callback fails, and the trace. *)
Fixpoint render_loop (frames : nat) (polls : list (list (Z * Z))) (should_close : bool)
  (movement_vector_ptr : option (list bool)) (shader_program_id : Z) (projection view : mat4)
  (models_to_draw : list Model) (texture_ids : list Z) : option Z * list event :=
  match frames with
  | O => (None, [])
  | S n =>
      if should_close then (None, []) else
      let frame := loop_body shader_program_id projection view models_to_draw texture_ids in
      match key_events should_close movement_vector_ptr (hd [] polls) with
      | Throw ex => (Some (signal_of ex), frame)
      | Ok (should_close', movement_vector_ptr') =>
          let '(stop, rest) :=
            render_loop n (tl polls) should_close' movement_vector_ptr' shader_program_id
              projection view models_to_draw texture_ids in
          (stop, frame ++ rest)
      end
  end.

(** The number of iterations of that loop that start. *)
Fixpoint loop_frames (frames : nat) (polls : list (list (Z * Z))) (should_close : bool)
  (movement_vector_ptr : option (list bool)) : nat :=
  match frames with
  | O => O
  | S n =>
      if should_close then O else
      match key_events should_close movement_vector_ptr (hd [] polls) with
      | Throw _ => 1%nat
      | Ok (should_close', movement_vector_ptr') =>
          S (loop_frames n (tl polls) should_close' movement_vector_ptr')
      end
  end.

(** ** main (draw_scene.cc, lines 411-498) *)

Definition kWindowWidth : Z := 640.
Definition kWindowHeight : Z := 480.

(** [static_cast<float>(kWindowWidth / kWindowHeight)]: the division is
    between two [int]s. *)
Definition aspect_ratio : Q := inject_Z (Z.quot kWindowWidth kWindowHeight).

Definition field_of_view_degrees : Q := 45.
Definition near_plane : Q := 1 # 10.
Definition far_plane : Q := 20.

Definition projection : mat4 :=
  ComputePerspectiveProjectionMatrix field_of_view_degrees aspect_ratio near_plane far_plane.

(** What the outside world decides for one run: the command line, the
    outcome of each initialisation step, the error (code and description)
    GLFW reports through the error callback when it cannot create the window,
    the program identifier the device assigns, the two texture names
    [glGenTextures] returns, the number of polls after which the window
    system asks the window to close, and the key events each poll
    delivers. *)
Record env := {
  cmdline : list (string * string);
  glfw_init_ok : bool;
  window_ok : bool;
  window_error : Z * string;
  glew_ok : bool;
  shader_ok : bool;
  shader_id : positive;
  texture_names : Z * Z;
  frames_before_close : nat;
  key_input : list (list (Z * Z))
}.

Definition init_ok (e : env) : bool :=
  glfw_init_ok e && window_ok e && glew_ok e && shader_ok e.

(** How the process ends and the trace of the run.  The error callback is
    registered after [glfwInit], so a failing [glfwInit] reports to no
    callback; a failing [glfwCreateWindow] reports its error to
    [ErrorCallback] before returning null.  [glewInit] is not part of GLFW
    and reports to no callback. *)
Definition main (e : env) : termination * list event :=
  if negb (glfw_init_ok e) then (Returned (-1), [EvGlfwInit]) else
  let tr := [EvGlfwInit; EvSetErrorCallback; EvWindowHints; EvCreateWindow] in
  if negb (window_ok e) then
    let '(log, aborted) := perform (ErrorCallback (fst (window_error e)) (snd (window_error e))) in
    if aborted then (Killed SIGABRT, tr ++ log)
    else (Returned (-1), tr ++ log ++ [EvGlfwTerminate])
  else
  let tr := tr ++ [EvMakeContextCurrent; EvSwapInterval 1; EvSetKeyCallback; EvGlewInit] in
  if negb (glew_ok e) then
    (Returned (-1), tr ++ [EvConsole "Glew did not initialize properly!"%string; EvGlfwTerminate])
  else
  let tr := tr ++ [EvViewport] in
  let '(created, shader_program_id, shader_log) := CreateShaderProgram (shader_ok e) (shader_id e) in
  let tr := tr ++ shader_log in
  if negb created then (Returned (-1), tr) else
  let '(models_to_draw, uploads) := ConstructModels in
  let texture_ids := [fst (texture_names e); snd (texture_names e)] in
  let loads := [EvLoadTexture (FLAGS (cmdline e) "brick_filepath");
                EvLoadTexture (FLAGS (cmdline e) "stone_filepath")]%string in
  let view := Mat4Identity in
  let '(stop, frames) :=
    render_loop (frames_before_close e) (key_input e) false movement_vector_ptr
      shader_program_id projection view models_to_draw texture_ids in
  match stop with
  | Some signal => (Killed signal, tr ++ uploads ++ loads ++ frames)
  | None =>
      (Returned 0, tr ++ uploads ++ loads ++ frames ++
         map EvDeleteModel (seq 0 (List.length models_to_draw)) ++
         [EvDestroyWindow; EvGlfwTerminate])
  end.

(** The number of loop iterations that start in a run of [main] whose
    initialisation succeeds. *)
Definition frames_run (e : env) : nat :=
  loop_frames (frames_before_close e) (key_input e) false movement_vector_ptr.

(** The exit status a shell reports for the process: the low byte of the
    value [main] returns, or 128 plus the signal that killed it. *)
Definition exit_status (t : termination) : Z :=
  match t with Returned r => r mod 256 | Killed signal => 128 + signal end.

(** Events emitted only inside the render loop. *)
Definition is_loop_event (ev : event) : bool :=
  match ev with
  | EvEnableDepthTest | EvClearColor | EvClear | EvUseProgram _ | EvPolygonMode _
  | EvDraw _ _ _ _ | EvBindVertexArray _ | EvSwapBuffers | EvPollEvents | EvCamera _ => true
  | _ => false
  end.

(** The loop iteration in the order claim C1 words it: camera update from
    the held-key vector, clear, use program, wireframe mode, draw each model
    with its texture, present, poll. *)
Definition claimed_loop_body (movement_vector_ptr : option (list bool))
  (shader_program_id : Z) (projection view : mat4)
  (models_to_draw : list Model) (texture_ids : list Z) : outcome (list event) :=
  calls <- UpdateCameraPose movement_vector_ptr ;;
  Ok (map EvCamera calls ++
      RenderScene shader_program_id projection view models_to_draw texture_ids ++
      [EvSwapBuffers; EvPollEvents]).

(** GLFW_PLATFORM_ERROR (glfw3.h). *)
Definition GLFW_PLATFORM_ERROR : Z := 65544.

(** A run where every initialisation step succeeds and no key is touched. *)
Definition sample_env (cmd : list (string * string)) (frames : nat) : env :=
  {| cmdline := cmd; glfw_init_ok := true; window_ok := true;
     window_error := (GLFW_PLATFORM_ERROR, "X11: Failed to create window"%string);
     glew_ok := true; shader_ok := true; shader_id := 3%positive; texture_names := (1, 2);
     frames_before_close := frames; key_input := [] |}.

(** Whether [KeyCallback] writes the held-key vector for this event: a
    press or release of a key in [0, 1024). *)
Definition key_is_recorded (ev : Z * Z) : bool :=
  let '(key, action) := ev in
  (0 <=? key) && (key <? 1024) && ((action =? GLFW_PRESS) || (action =? GLFW_RELEASE)).

(** A run whose shader program cannot be created. *)
Definition shader_failure_env : env :=
  {| cmdline := []; glfw_init_ok := true; window_ok := true;
     window_error := (GLFW_PLATFORM_ERROR, "X11: Failed to create window"%string);
     glew_ok := true; shader_ok := false; shader_id := 3%positive; texture_names := (1, 2);
     frames_before_close := 5; key_input := [] |}.

(** A run whose window cannot be created. *)
Definition window_failure_env : env :=
  {| cmdline := []; glfw_init_ok := true; window_ok := false;
     window_error := (GLFW_PLATFORM_ERROR, "X11: Failed to create window"%string);
     glew_ok := true; shader_ok := true; shader_id := 3%positive; texture_names := (1, 2);
     frames_before_close := 5; key_input := [] |}.

(** A run where every initialisation step succeeds and the user presses
    Escape during the first poll; the window system would ask the window to
    close after five polls. *)
Definition escape_env : env :=
  {| cmdline := []; glfw_init_ok := true; window_ok := true;
     window_error := (GLFW_PLATFORM_ERROR, "X11: Failed to create window"%string);
     glew_ok := true; shader_ok := true; shader_id := 3%positive; texture_names := (1, 2);
     frames_before_close := 5; key_input := [[(GLFW_KEY_ESCAPE, GLFW_PRESS)]] |}.

(** The iteration of the render loop in a run of [main]. *)
Definition main_frame (e : env) : list event :=
  loop_body (Zpos (shader_id e)) projection Mat4Identity [pyramid; cube]
    [fst (texture_names e); snd (texture_names e)].

(** The events of a run of [main] before its loop, once initialisation
    succeeds, and after it, once the loop ends. *)
Definition main_prefix (e : env) : list event :=
  [EvGlfwInit; EvSetErrorCallback; EvWindowHints; EvCreateWindow;
   EvMakeContextCurrent; EvSwapInterval 1; EvSetKeyCallback; EvGlewInit;
   EvViewport; EvUploadModel 0; EvUploadModel 1;
   EvLoadTexture (FLAGS (cmdline e) "brick_filepath");
   EvLoadTexture (FLAGS (cmdline e) "stone_filepath")]%string.

Definition main_teardown : list event :=
  [EvDeleteModel 0; EvDeleteModel 1; EvDestroyWindow; EvGlfwTerminate].

(** A run where every initialisation step succeeds, the window is asked to
    close after two polls, and the first poll delivers a press of a key GLFW
    does not know. *)
Definition unknown_key_env : env :=
  {| cmdline := []; glfw_init_ok := true; window_ok := true;
     window_error := (GLFW_PLATFORM_ERROR, "X11: Failed to create window"%string);
     glew_ok := true; shader_ok := true; shader_id := 3%positive; texture_names := (1, 2);
     frames_before_close := 2; key_input := [[(GLFW_KEY_UNKNOWN, GLFW_PRESS)]; []] |}.

(** ** Sequences of input events *)

(** The value of held-key entry [j] set by the last press or release of key
    [j] (a key in [0, 1024)) in [evs], if there is one. *)
Fixpoint last_key_state (j : nat) (evs : list (Z * Z)) : option bool :=
  match evs with
  | [] => None
  | (key, action) :: evs' =>
      match last_key_state j evs' with
      | Some b => Some b
      | None =>
          if (0 <=? key) && (key <? 1024) && (Z.of_nat j =? key) then
            if action =? GLFW_PRESS then Some true
            else if action =? GLFW_RELEASE then Some false
            else None
          else None
      end
  end.

(** Held-key entry [j] after the events [evs] applied to the vector [v]. *)
Definition held_after (v : list bool) (evs : list (Z * Z)) (j : nat) : bool :=
  match last_key_state j evs with Some b => b | None => nth j v false end.

(** Whether [evs] holds an Escape press. *)
Definition has_escape_press (evs : list (Z * Z)) : bool :=
  existsb (fun '(key, action) => (key =? GLFW_KEY_ESCAPE) && (action =? GLFW_PRESS)) evs.




(** ** Counting the events of a run *)

Definition count_events (p : event -> bool) (tr : list event) : nat :=
  List.length (filter p tr).

Definition is_swap (ev : event) : bool :=
  match ev with EvSwapBuffers => true | _ => false end.

Definition is_poll (ev : event) : bool :=
  match ev with EvPollEvents => true | _ => false end.

Definition is_draw (ev : event) : bool :=
  match ev with EvDraw _ _ _ _ => true | _ => false end.

Definition is_upload (i : nat) (ev : event) : bool :=
  match ev with EvUploadModel j => Nat.eqb i j | _ => false end.

Definition is_delete (i : nat) (ev : event) : bool :=
  match ev with EvDeleteModel j => Nat.eqb i j | _ => false end.

(** * Properties *)

(** ** Helper lemmas on lists *)

Lemma replace_nth_length {A} (l : list A) n a :
  List.length (replace_nth l n a) = List.length l.
Proof.
  revert n; induction l as [|h t IH]; intros [|n]; simpl; auto.
Qed.

Lemma nth_replace_nth {A} (l : list A) n a d j :
  (n < List.length l)%nat ->
  nth j (replace_nth l n a) d = if Nat.eqb j n then a else nth j l d.
Proof.
  revert n j; induction l as [|h t IH]; intros n j Hn; simpl in Hn; [lia|].
  destruct n as [|n], j as [|j]; simpl; try reflexivity.
  apply IH; lia.
Qed.

Lemma vector_at_in_range (v : list bool) (i : Z) :
  (0 <= i < Z.of_nat (List.length v))%Z -> vector_at v i = Ok (nth (Z.to_nat i) v false).
Proof.
  intros H; unfold vector_at.
  replace ((0 <=? i) && (i <? Z.of_nat (List.length v))) with true; [reflexivity|].
  symmetry; apply andb_true_intro; split; [apply Z.leb_le | apply Z.ltb_lt]; lia.
Qed.

Lemma vector_at_set_in_range (v : list bool) (i : Z) b :
  (0 <= i < Z.of_nat (List.length v))%Z ->
  vector_at_set v i b = Ok (replace_nth v (Z.to_nat i) b).
Proof.
  intros H; unfold vector_at_set.
  replace ((0 <=? i) && (i <? Z.of_nat (List.length v))) with true; [reflexivity|].
  symmetry; apply andb_true_intro; split; [apply Z.leb_le | apply Z.ltb_lt]; lia.
Qed.

(** ** C8: UpdateCameraPose with W and A held *)

(** C8: for a 1024-entry held-key vector whose only true entries are those of
    W and A, one UpdateCameraPose call makes exactly the calls MoveFront and
    MoveLeft, once each, and no other Move call. *)
Theorem UpdateCameraPose_W_A (v : list bool)
  (Hlen : List.length v = 1024%nat)
  (Hheld : forall k, (k < 1024)%nat ->
           nth k v false = (Nat.eqb k 87 || Nat.eqb k 65)) :
  UpdateCameraPose (Some v) = Ok [MoveFront; MoveLeft].
Proof.
  unfold UpdateCameraPose, if_held, deref; simpl obind.
  unfold GLFW_KEY_W, GLFW_KEY_S, GLFW_KEY_A, GLFW_KEY_D.
  rewrite !vector_at_in_range by (rewrite Hlen; simpl; lia).
  rewrite !Hheld by (simpl; lia).
  reflexivity.
Qed.

(** ** C6: KeyCallback and the held-key vector *)

(** C6: with the held-key vector of 1024 entries, every key event leaves a
    vector of 1024 entries and never throws: the entry at [key] becomes true
    on press and false on release when [0 <= key < 1024]; every other entry,
    and every entry when [key] is outside [0, 1024), keeps its value. *)
Theorem KeyCallback_held_vector (v : list bool) (Hlen : List.length v = 1024%nat)
  (should_close : bool) (key action : Z) :
  exists v',
    KeyCallback should_close (Some v) key action =
      Ok (should_close || ((key =? GLFW_KEY_ESCAPE) && (action =? GLFW_PRESS)), Some v') /\
    List.length v' = 1024%nat /\
    forall j : nat,
      nth j v' false =
        if (0 <=? key) && (key <? 1024) && (Z.of_nat j =? key) then
          (if action =? GLFW_PRESS then true
           else if action =? GLFW_RELEASE then false
           else nth j v false)
        else nth j v false.
Proof.
  assert (Hsc : (if (key =? GLFW_KEY_ESCAPE) && (action =? GLFW_PRESS) then true
                 else should_close) =
                should_close || ((key =? GLFW_KEY_ESCAPE) && (action =? GLFW_PRESS)))
    by (destruct ((key =? GLFW_KEY_ESCAPE) && (action =? GLFW_PRESS)), should_close; reflexivity).
  unfold KeyCallback; rewrite Hsc.
  destruct ((0 <=? key) && (key <? 1024)) eqn:Hr.
  - apply andb_true_iff in Hr as [H0 H1]; apply Z.leb_le in H0; apply Z.ltb_lt in H1.
    assert (Hn : (Z.to_nat key < List.length v)%nat) by (rewrite Hlen; lia).
    assert (Hj : forall j, (Z.of_nat j =? key) = Nat.eqb j (Z.to_nat key)).
    { intros j; destruct (Nat.eqb_spec j (Z.to_nat key)); [apply Z.eqb_eq; lia|].
      apply Z.eqb_neq; lia. }
    destruct (action =? GLFW_PRESS) eqn:Hp; [|destruct (action =? GLFW_RELEASE) eqn:Hrel].
    + simpl; rewrite vector_at_set_in_range by lia; simpl.
      eexists; split; [reflexivity|]; split; [now rewrite replace_nth_length|].
      intros j; rewrite Hj, nth_replace_nth by exact Hn.
      destruct (Nat.eqb j (Z.to_nat key)); reflexivity.
    + simpl; rewrite vector_at_set_in_range by lia; simpl.
      eexists; split; [reflexivity|]; split; [now rewrite replace_nth_length|].
      intros j; rewrite Hj, nth_replace_nth by exact Hn.
      destruct (Nat.eqb j (Z.to_nat key)); reflexivity.
    + exists v; split; [reflexivity|]; split; [exact Hlen|].
      intros j; simpl; destruct (Z.of_nat j =? key); reflexivity.
  - exists v; split; [reflexivity|]; split; [exact Hlen|]; intros j; reflexivity.
Qed.

(** ** C9: ErrorCallback *)

(** C9: the registered error callback writes the description to the fatal
    log and then aborts the process; nothing follows the abort. *)
Theorem ErrorCallback_is_fatal (error : Z) (description : string) :
  ErrorCallback error description = [LogFatal description; Abort].
Proof. reflexivity. Qed.

(** ** The shape of a run of [main] *)

(** With [movement_vector_ptr] null, a sequence of key events fails at its
    first recorded event and otherwise leaves the flag and the pointer. *)
Lemma key_events_null (should_close : bool) (evs : list (Z * Z)) :
  key_events should_close None evs =
    if existsb key_is_recorded evs then Throw NullPointer else Ok (should_close, None).
Proof.
  revert should_close; induction evs as [|[key action] evs IH]; intros sc; [reflexivity|].
  cbn [key_events existsb]; unfold key_is_recorded at 1, KeyCallback.
  destruct ((0 <=? key) && (key <? 1024)) eqn:Hr; simpl andb.
  - destruct (action =? GLFW_PRESS) eqn:Hp; [reflexivity|].
    destruct (action =? GLFW_RELEASE) eqn:Hrel; [reflexivity|].
    rewrite andb_false_r; simpl; apply IH.
  - destruct (key =? GLFW_KEY_ESCAPE) eqn:He.
    + apply Z.eqb_eq in He; subst key; discriminate Hr.
    + simpl; apply IH.
Qed.

Lemma in_concat_repeat {A} (x : A) (l : list A) n :
  In x (List.concat (repeat l n)) -> In x l.
Proof.
  induction n as [|n IH]; simpl; [contradiction|].
  intros H; apply in_app_or in H as [H|H]; auto.
Qed.

(** The loop of [main], whose pointer stays null: it runs one full
    iteration per poll until the window is asked to close, or until a poll
    delivers a recorded key event, which kills the process with [SIGSEGV]. *)
Lemma render_loop_null n polls pid p v ms tex :
  render_loop n polls false None pid p v ms tex =
    (if existsb (existsb key_is_recorded) (firstn n polls) then Some SIGSEGV else None,
     List.concat (repeat (loop_body pid p v ms tex) (loop_frames n polls false None))).
Proof.
  revert polls; induction n as [|n IH]; intros polls; [reflexivity|].
  cbn [render_loop loop_frames]; rewrite key_events_null.
  destruct polls as [|a polls]; cbn [hd tl firstn existsb].
  - rewrite IH, firstn_nil; reflexivity.
  - destruct (existsb key_is_recorded a); simpl orb.
    + simpl; rewrite app_nil_r; reflexivity.
    + rewrite IH; reflexivity.
Qed.

Lemma firstn_recorded_false n polls :
  existsb (existsb key_is_recorded) (firstn n polls) = false <->
  (forall j, (j < n)%nat -> existsb key_is_recorded (nth j polls []) = false).
Proof.
  revert polls; induction n as [|n IH]; intros polls; simpl.
  - split; [intros _ j Hj; lia | reflexivity].
  - destruct polls as [|a polls]; simpl.
    + split; [intros _ [|j] _; reflexivity | reflexivity].
    + rewrite orb_false_iff, IH; split.
      * intros [Ha Hl] [|j] Hj; [exact Ha | apply Hl; lia].
      * intros H; split; [apply (H 0%nat); lia|].
        intros j Hj; apply (H (S j)); lia.
Qed.

Lemma loop_frames_null_none n polls :
  existsb (existsb key_is_recorded) (firstn n polls) = false ->
  loop_frames n polls false None = n.
Proof.
  revert polls; induction n as [|n IH]; intros polls H; [reflexivity|].
  cbn [loop_frames]; rewrite key_events_null.
  destruct polls as [|a polls]; cbn [hd tl firstn existsb] in *.
  - rewrite IH; [reflexivity|]; rewrite firstn_nil; reflexivity.
  - apply orb_false_iff in H as [Ha Hl]; rewrite Ha, IH by exact Hl; reflexivity.
Qed.

Lemma loop_frames_null_first n polls k :
  (k < n)%nat ->
  (forall j, (j < k)%nat -> existsb key_is_recorded (nth j polls []) = false) ->
  existsb key_is_recorded (nth k polls []) = true ->
  loop_frames n polls false None = S k /\
  existsb (existsb key_is_recorded) (firstn n polls) = true.
Proof.
  revert n polls; induction k as [|k IH]; intros n polls Hk Hbefore Hk_rec;
    (destruct n as [|n]; [lia|]); cbn [loop_frames]; rewrite key_events_null;
    (destruct polls as [|a polls]; [simpl in Hk_rec; discriminate Hk_rec|]); cbn [hd tl firstn existsb].
  - simpl in Hk_rec; rewrite Hk_rec; split; reflexivity.
  - pose proof (Hbefore 0%nat ltac:(lia)) as H0; simpl in H0; rewrite H0; simpl orb.
    destruct (IH n polls) as [H1 H2]; [lia | | exact Hk_rec |].
    + intros j Hj; apply (Hbefore (S j)); lia.
    + rewrite H1, H2; split; reflexivity.
Qed.

Lemma main_frame_unfold (e : env) :
  main_frame e =
    [EvEnableDepthTest; EvClearColor; EvClear; EvUseProgram (Zpos (shader_id e));
     EvPolygonMode GL_LINE;
     EvDraw 0 projection Mat4Identity (fst (texture_names e));
     EvDraw 1 projection Mat4Identity (snd (texture_names e));
     EvBindVertexArray 0; EvSwapBuffers; EvPollEvents].
Proof. reflexivity. Qed.

Lemma main_init_ok_eq (e : env) :
  init_ok e = true ->
  main e =
    if existsb (existsb key_is_recorded) (firstn (frames_before_close e) (key_input e))
    then (Killed SIGSEGV, main_prefix e ++ List.concat (repeat (main_frame e) (frames_run e)))
    else (Returned 0, main_prefix e ++ List.concat (repeat (main_frame e) (frames_run e)) ++
                      main_teardown).
Proof.
  destruct e as [cmd g w we gl s id tn n keys]; unfold init_ok; simpl.
  destruct g, w, gl, s; simpl; try discriminate; intros _.
  unfold main, frames_run, main_frame, movement_vector_ptr; cbn -[render_loop loop_frames loop_body projection FLAGS].
  rewrite render_loop_null.
  destruct (existsb (existsb key_is_recorded) (firstn n keys)); reflexivity.
Qed.

Lemma main_init_ok_shape (e : env) :
  init_ok e = true ->
  exists pre post,
    snd (main e) = pre ++ List.concat (repeat (main_frame e) (frames_run e)) ++ post /\
    (forall ev, In ev pre -> is_loop_event ev = false) /\
    (forall ev, In ev post -> is_loop_event ev = false).
Proof.
  intros Hok; rewrite (main_init_ok_eq e Hok).
  assert (Hpre : forall ev, In ev (main_prefix e) -> is_loop_event ev = false)
    by (intros ev H; simpl in H; repeat destruct H as [H|H]; subst; try reflexivity; contradiction).
  destruct (existsb _ _); simpl snd.
  - exists (main_prefix e), []; rewrite app_nil_r.
    split; [reflexivity|]; split; [exact Hpre | intros ev []].
  - exists (main_prefix e), main_teardown.
    split; [reflexivity|]; split; [exact Hpre|].
    intros ev H; simpl in H; repeat destruct H as [H|H]; subst; try reflexivity; contradiction.
Qed.

Lemma main_init_fail (e : env) :
  init_ok e = false ->
  exit_status (fst (main e)) <> 0 /\ forall ev, In ev (snd (main e)) -> is_loop_event ev = false.
Proof.
  destruct e as [cmd g w [code desc] gl s id tn n keys]; unfold init_ok; simpl.
  destruct g, w, gl, s; simpl; try discriminate; intros _;
    (split; [discriminate|]); intros ev H; simpl in H;
    repeat destruct H as [H|H]; subst; try reflexivity; contradiction.
Qed.

(** Proves [In x l] for a concrete list [l] holding [x]. *)
Ltac find_in := simpl; repeat (first [left; reflexivity | right]).

(** ** C1: the order of one iteration of the render loop *)

(** C1 (counterexample): with W held, an iteration as the claim words it
    starts with the camera call MoveFront, while the iteration of [main]
    makes no camera call at all. *)
Lemma main_loop_skips_camera_update :
  Ok (main_frame (sample_env [] 1)) <>
  claimed_loop_body (Some (held_keys [GLFW_KEY_W])) 3 projection Mat4Identity
    [pyramid; cube] [1; 2].
Proof. vm_compute. intros H; injection H as H; discriminate H. Qed.

(** C1 (amended): once initialisation succeeds, the run of [main] is a
    prefix, then one block per loop iteration that starts ([frames_run e]:
    until the window is asked to close, or up to the poll whose key callback
    kills the process), then a suffix, with every loop event inside the
    blocks.  Each block clears the buffers (enable depth
    test, clear color, clear), activates the shader program, sets wireframe
    polygon mode, draws model 0 with [texture_ids[0]] and model 1 with
    [texture_ids[1]], unbinds the vertex array, presents the frame and polls
    events, in that order.  No camera-controller call occurs anywhere in the
    run: the loop never updates the camera pose. *)
Theorem main_render_loop_order (e : env) (Hok : init_ok e = true) :
  exists pre post,
    snd (main e) =
      pre ++ List.concat (repeat
        [EvEnableDepthTest; EvClearColor; EvClear; EvUseProgram (Zpos (shader_id e));
         EvPolygonMode GL_LINE;
         EvDraw 0 projection Mat4Identity (fst (texture_names e));
         EvDraw 1 projection Mat4Identity (snd (texture_names e));
         EvBindVertexArray 0; EvSwapBuffers; EvPollEvents]
        (frames_run e)) ++ post /\
    (forall ev, In ev pre -> is_loop_event ev = false) /\
    (forall ev, In ev post -> is_loop_event ev = false) /\
    (forall c, ~ In (EvCamera c) (snd (main e))).
Proof.
  destruct (main_init_ok_shape e Hok) as (pre & post & Hm & Hpre & Hpost).
  rewrite main_frame_unfold in Hm.
  exists pre, post; rewrite Hm; simpl snd.
  split; [reflexivity|]; split; [exact Hpre|]; split; [exact Hpost|].
  intros c H; apply in_app_or in H as [H|H]; [apply Hpre in H; discriminate|].
  apply in_app_or in H as [H|H]; [|apply Hpost in H; discriminate].
  apply in_concat_repeat in H; simpl in H.
  repeat destruct H as [H|H]; try discriminate; contradiction.
Qed.

Lemma main_loop_render_order_witness :
  init_ok (sample_env [] 2) = true /\
  exists pre post,
    snd (main (sample_env [] 2)) =
      pre ++ List.concat (repeat
        [EvEnableDepthTest; EvClearColor; EvClear; EvUseProgram 3;
         EvPolygonMode GL_LINE;
         EvDraw 0 projection Mat4Identity 1;
         EvDraw 1 projection Mat4Identity 2;
         EvBindVertexArray 0; EvSwapBuffers; EvPollEvents] 2) ++ post /\
    (forall ev, In ev pre -> is_loop_event ev = false) /\
    (forall ev, In ev post -> is_loop_event ev = false) /\
    (forall c, ~ In (EvCamera c) (snd (main (sample_env [] 2)))).
Proof.
  split; [reflexivity|].
  exact (main_render_loop_order (sample_env [] 2) eq_refl).
Defined.

(** ** C2: the view matrix of every draw call *)

(** C2: every draw call of a run of [main] receives the identity matrix as
    its view matrix. *)
Theorem main_draws_with_identity_view (e : env) (i : nat) (p v : mat4) (t : Z)
  (Hdraw : In (EvDraw i p v t) (snd (main e))) :
  v = Mat4Identity.
Proof.
  destruct (init_ok e) eqn:Hok.
  - destruct (main_init_ok_shape e Hok) as (pre & post & Hm & Hpre & Hpost).
    rewrite Hm in Hdraw; simpl snd in Hdraw.
    apply in_app_or in Hdraw as [H|H]; [apply Hpre in H; discriminate|].
    apply in_app_or in H as [H|H]; [|apply Hpost in H; discriminate].
    apply in_concat_repeat in H; rewrite main_frame_unfold in H; simpl in H.
    repeat destruct H as [H|H]; try discriminate; try contradiction;
      injection H; intros; subst; reflexivity.
  - destruct (main_init_fail e Hok) as [_ Hno].
    apply Hno in Hdraw; discriminate.
Qed.

Lemma main_draws_with_identity_view_witness :
  In (EvDraw 1 projection Mat4Identity 2) (snd (main (sample_env [] 1))) /\
  Mat4Identity = Mat4Identity.
Proof.
  assert (H : In (EvDraw 1 projection Mat4Identity 2) (snd (main (sample_env [] 1))))
    by find_in.
  split; [exact H|].
  exact (main_draws_with_identity_view (sample_env [] 1) 1 projection Mat4Identity 2 H).
Defined.

(** ** C3: the projection matrix *)

(** C3 (evidence of the defect): [main] builds the projection matrix from a
    45 degree field of view, near plane 0.1 and far plane 20, but with aspect
    ratio 1, not 640/480: [kWindowWidth / kWindowHeight] is an integer
    division, done before the cast to [float].  Every draw call of every run
    receives this matrix. *)
Theorem main_projection_aspect_ratio_one :
  aspect_ratio = 1%Q /\ ~ (aspect_ratio == 640 # 480)%Q /\
  projection = Mat4Perspective 45 1 (1 # 10) 20 /\
  (forall e i p v t, In (EvDraw i p v t) (snd (main e)) ->
     p = Mat4Perspective 45 1 (1 # 10) 20).
Proof.
  split; [reflexivity|]; split; [vm_compute; discriminate|]; split; [reflexivity|].
  intros e i p v t Hdraw.
  destruct (init_ok e) eqn:Hok.
  - destruct (main_init_ok_shape e Hok) as (pre & post & Hm & Hpre & Hpost).
    rewrite Hm in Hdraw; simpl snd in Hdraw.
    apply in_app_or in Hdraw as [H|H]; [apply Hpre in H; discriminate|].
    apply in_app_or in H as [H|H]; [|apply Hpost in H; discriminate].
    apply in_concat_repeat in H; rewrite main_frame_unfold in H; simpl in H.
    repeat destruct H as [H|H]; try discriminate; try contradiction;
      injection H; intros; subst; reflexivity.
  - destruct (main_init_fail e Hok) as [_ Hno].
    apply Hno in Hdraw; discriminate.
Qed.

(** ** C4: the texture file paths *)

(** C4 (evidence of the defect): with [--texture1_filepath=a.bmp] on the
    command line, [FLAGS_texture1_filepath] is "a.bmp" and
    [FLAGS_texture2_filepath] keeps its default "texture2.bmp", yet neither
    path is loaded: [main] loads [FLAGS_brick_filepath] and
    [FLAGS_stone_filepath], flags this file does not declare. *)
Theorem main_loads_undeclared_texture_flags :
  let e := sample_env [("texture1_filepath", "a.bmp")]%string 1 in
  FLAGS (cmdline e) "texture1_filepath" = Some "a.bmp"%string /\
  FLAGS (cmdline e) "texture2_filepath" = Some "texture2.bmp"%string /\
  In (EvLoadTexture (FLAGS (cmdline e) "brick_filepath")) (snd (main e)) /\
  In (EvLoadTexture (FLAGS (cmdline e) "stone_filepath")) (snd (main e)) /\
  ~ In (EvLoadTexture (Some "a.bmp"%string)) (snd (main e)) /\
  ~ In (EvLoadTexture (Some "texture2.bmp"%string)) (snd (main e)).
Proof.
  intros e; split; [reflexivity|]; split; [reflexivity|].
  split; [find_in|]; split; [find_in|].
  split; intros H; vm_compute in H; repeat destruct H as [H|H]; try discriminate; contradiction.
Qed.

(** ** C5: exit status *)

(** C5 (evidence of the defect): pressing Escape, the way the spec gives to
    ask the window to close, does not make [main] return 0.  [KeyCallback]
    writes the held-key vector through [movement_vector_ptr], which [main]
    never sets, so the process is killed by [SIGSEGV] (status 139) in the
    first poll, without releasing the models, destroying the window or
    terminating GLFW.  In general, once initialisation succeeds, [main]
    returns 0 exactly when no key in [0, 1024) is pressed or released before
    the window system asks the window to close, and is killed by [SIGSEGV]
    otherwise.  When an initialisation step fails, the status is non-zero and
    the run has no render-loop event. *)
Theorem main_exit_status :
  fst (main escape_env) = Killed SIGSEGV /\
  exit_status (fst (main escape_env)) = 139 /\
  frames_run escape_env = 1%nat /\
  ~ In EvDestroyWindow (snd (main escape_env)) /\
  ~ In EvGlfwTerminate (snd (main escape_env)) /\
  (forall i, ~ In (EvDeleteModel i) (snd (main escape_env))) /\
  (forall e, init_ok e = true ->
     fst (main e) =
       if existsb (existsb key_is_recorded) (firstn (frames_before_close e) (key_input e))
       then Killed SIGSEGV else Returned 0) /\
  (forall e, init_ok e = false ->
     exit_status (fst (main e)) <> 0 /\
     forall ev, In ev (snd (main e)) -> is_loop_event ev = false).
Proof.
  split; [reflexivity|]; split; [reflexivity|]; split; [reflexivity|].
  split; [vm_compute; intros H; repeat destruct H as [H|H]; try discriminate; contradiction|].
  split; [vm_compute; intros H; repeat destruct H as [H|H]; try discriminate; contradiction|].
  split; [intros i; vm_compute; intros H; repeat destruct H as [H|H]; try discriminate; contradiction|].
  split.
  - intros e Hok; rewrite (main_init_ok_eq e Hok).
    destruct (existsb _ _); reflexivity.
  - exact main_init_fail.
Qed.

(** ** C7: MouseCallback *)

(** C7 (evidence of the defect): the stored last position is an [int], so
    it holds the truncated cursor position.  With sensitivity 1, a first call
    at (0.5, 0.5) stores 0 and yields a yaw offset of 0.5, not 0; a second
    call at (1.5, 0.5) yields a yaw offset of 1.5 = 1.5 - 0 instead of
    1.0 = 1.5 - 0.5, the distance from the previous cursor position. *)
Theorem MouseCallback_truncates_last_position :
  last_x_position (fst (MouseCallback 1 mouse_statics_init (1 # 2) (1 # 2))) = 0%Z /\
  match snd (mouse_events 1 mouse_statics_init [((1 # 2)%Q, (1 # 2)%Q); ((3 # 2)%Q, (1 # 2)%Q)]) with
  | [AddYawOffset yaw0; AddPitchOffset _; AddYawOffset yaw1; AddPitchOffset _] =>
      (yaw0 == 1 # 2)%Q /\ (yaw1 == 3 # 2)%Q /\ ~ (yaw1 == (3 # 2) - (1 # 2))%Q
  | _ => False
  end.
Proof.
  split; [reflexivity|].
  vm_compute; split; [reflexivity|]; split; [reflexivity|]; discriminate.
Qed.

(** ** C10: the cube's vertex matrix *)

(** C10: the cube's vertex matrix has 8 columns; the assignments for cube
    vertices 4 to 7 overwrite columns 0 to 3 (column 0 holds vertex 4's
    position (0, 2, 0)), so every entry of columns 4 to 7 is still
    unassigned when the cube model is built and uploaded, while the cube's
    index list refers to vertex 7. *)
Theorem cube_columns_4_to_7_unassigned :
  fst ConstructModels = [pyramid; cube] /\
  snd ConstructModels = [EvUploadModel 0; EvUploadModel 1] /\
  model_vertices cube = cube_vertices /\
  List.length cube_vertices = 8%nat /\
  (forall r c, (r < 8)%nat -> (4 <= c < 8)%nat -> entry cube_vertices r c = None) /\
  entry cube_vertices 0 0 = Some 0%Q /\ entry cube_vertices 1 0 = Some 2%Q /\
  entry cube_vertices 2 0 = Some 0%Q /\
  In 7 (model_indices cube) /\
  (forall i, In i (model_indices cube) -> 0 <= i <= 7).
Proof.
  do 4 (split; [reflexivity|]).
  split.
  { intros r c Hr Hc; unfold entry.
    assert (Hcol : nth c cube_vertices [] = repeat None 8).
    { assert (c = 4 \/ c = 5 \/ c = 6 \/ c = 7)%nat as Hc' by lia.
      destruct Hc' as [-> | [-> | [-> | ->]]]; reflexivity. }
    rewrite Hcol; apply nth_repeat. }
  do 3 (split; [reflexivity|]).
  split; [find_in|].
  intros i Hi; simpl in Hi; repeat destruct Hi as [Hi|Hi]; subst; try lia; contradiction.
Qed.

Lemma UpdateCameraPose_W_A_witness :
  List.length (held_keys [GLFW_KEY_W; GLFW_KEY_A]) = 1024%nat /\
  UpdateCameraPose (Some (held_keys [GLFW_KEY_W; GLFW_KEY_A])) = Ok [MoveFront; MoveLeft].
Proof.
  split; [reflexivity|].
  apply UpdateCameraPose_W_A; [reflexivity|].
  intros k Hk; unfold held_keys.
  set (f := fun k : nat => existsb (Z.eqb (Z.of_nat k)) [GLFW_KEY_W; GLFW_KEY_A]).
  rewrite (nth_indep (map f (seq 0 1024)) false (f 0%nat))
    by (rewrite length_map, length_seq; exact Hk).
  rewrite map_nth, seq_nth by exact Hk; unfold f; simpl.
  unfold GLFW_KEY_W, GLFW_KEY_A.
  destruct (Nat.eqb_spec k 87) as [->|H87]; [reflexivity|].
  destruct (Nat.eqb_spec k 65) as [->|H65]; [reflexivity|].
  simpl; rewrite orb_false_r.
  replace (Z.of_nat k =? 87)%Z with false by (symmetry; apply Z.eqb_neq; lia).
  replace (Z.of_nat k =? 65)%Z with false by (symmetry; apply Z.eqb_neq; lia).
  reflexivity.
Defined.

Lemma KeyCallback_held_vector_witness :
  List.length (held_keys []) = 1024%nat /\
  exists v', KeyCallback false (Some (held_keys [])) 1024 GLFW_PRESS =
               Ok (false || ((1024 =? GLFW_KEY_ESCAPE) && (GLFW_PRESS =? GLFW_PRESS)), Some v') /\
             List.length v' = 1024%nat /\
             forall j : nat, nth j v' false =
               if (0 <=? 1024) && (1024 <? 1024) && (Z.of_nat j =? 1024) then
                 (if GLFW_PRESS =? GLFW_PRESS then true
                  else if GLFW_PRESS =? GLFW_RELEASE then false
                  else nth j (held_keys []) false)
               else nth j (held_keys []) false.
Proof.
  split; [reflexivity|].
  exact (KeyCallback_held_vector (held_keys []) eq_refl false 1024 GLFW_PRESS).
Defined.

(** * Further properties of draw_scene.cc *)

(** ** The key callback *)

(** One key event on a 1024-entry held-key vector (shared by the lemmas on
    event sequences). *)
Lemma KeyCallback_step (v : list bool) (Hlen : List.length v = 1024%nat)
  (should_close : bool) (key action : Z) :
  exists v',
    KeyCallback should_close (Some v) key action =
      Ok (should_close || ((key =? GLFW_KEY_ESCAPE) && (action =? GLFW_PRESS)), Some v') /\
    List.length v' = 1024%nat /\
    forall j : nat,
      nth j v' false =
        if (0 <=? key) && (key <? 1024) && (Z.of_nat j =? key) then
          (if action =? GLFW_PRESS then true
           else if action =? GLFW_RELEASE then false
           else nth j v false)
        else nth j v false.
Proof.
  assert (Hsc : (if (key =? GLFW_KEY_ESCAPE) && (action =? GLFW_PRESS) then true
                 else should_close) =
                should_close || ((key =? GLFW_KEY_ESCAPE) && (action =? GLFW_PRESS)))
    by (destruct ((key =? GLFW_KEY_ESCAPE) && (action =? GLFW_PRESS)), should_close; reflexivity).
  unfold KeyCallback; rewrite Hsc.
  destruct ((0 <=? key) && (key <? 1024)) eqn:Hr.
  - apply andb_true_iff in Hr as [H0 H1]; apply Z.leb_le in H0; apply Z.ltb_lt in H1.
    assert (Hn : (Z.to_nat key < List.length v)%nat) by (rewrite Hlen; lia).
    assert (Hj : forall j, (Z.of_nat j =? key) = Nat.eqb j (Z.to_nat key)).
    { intros j; destruct (Nat.eqb_spec j (Z.to_nat key)); [apply Z.eqb_eq; lia|].
      apply Z.eqb_neq; lia. }
    destruct (action =? GLFW_PRESS) eqn:Hp; [|destruct (action =? GLFW_RELEASE) eqn:Hrel];
      simpl.
    1,2: rewrite vector_at_set_in_range by lia; simpl;
         eexists; split; [reflexivity|]; split; [now rewrite replace_nth_length|];
         intros j; rewrite Hj, nth_replace_nth by exact Hn;
         destruct (Nat.eqb j (Z.to_nat key)); reflexivity.
    exists v; split; [reflexivity|]; split; [exact Hlen|].
    intros j; destruct (Z.of_nat j =? key); reflexivity.
  - exists v; split; [reflexivity|]; split; [exact Hlen|]; intros j; reflexivity.
Qed.

(** X1: with [movement_vector_ptr] null, as [main] leaves it, every press
    or release of a key in [0, 1024) (Escape included) dereferences the null
    pointer; every other event only updates the should-close flag. *)
Theorem KeyCallback_null_vector (should_close : bool) (key action : Z) :
  KeyCallback should_close None key action =
    if (0 <=? key) && (key <? 1024) && ((action =? GLFW_PRESS) || (action =? GLFW_RELEASE))
    then Throw NullPointer
    else Ok (should_close || ((key =? GLFW_KEY_ESCAPE) && (action =? GLFW_PRESS)), None).
Proof.
  unfold KeyCallback.
  destruct ((key =? GLFW_KEY_ESCAPE) && (action =? GLFW_PRESS)), should_close;
  destruct ((0 <=? key) && (key <? 1024)); simpl;
  destruct (action =? GLFW_PRESS); simpl; try reflexivity;
  destruct (action =? GLFW_RELEASE); reflexivity.
Qed.

Lemma key_events_spec (v : list bool) (Hlen : List.length v = 1024%nat)
  (should_close : bool) (evs : list (Z * Z)) :
  exists v',
    key_events should_close (Some v) evs =
      Ok (should_close || has_escape_press evs, Some v') /\
    List.length v' = 1024%nat /\
    forall j : nat,
      nth j v' false =
        match last_key_state j evs with Some b => b | None => nth j v false end.
Proof.
  revert v Hlen should_close.
  induction evs as [|[key action] evs IH]; intros v Hlen should_close.
  - exists v; simpl; rewrite orb_false_r; auto.
  - destruct (KeyCallback_step v Hlen should_close key action) as (v1 & Hk & Hl1 & Hn1).
    destruct (IH v1 Hl1 (should_close || ((key =? GLFW_KEY_ESCAPE) && (action =? GLFW_PRESS))))
      as (v2 & Hk2 & Hl2 & Hn2).
    exists v2; simpl key_events; rewrite Hk; simpl obind; simpl fst; simpl snd.
    rewrite Hk2; split; [|split; [exact Hl2|]].
    + simpl has_escape_press; rewrite orb_assoc; reflexivity.
    + intros j; rewrite Hn2, Hn1; simpl last_key_state.
      destruct (last_key_state j evs); [reflexivity|].
      destruct ((0 <=? key) && (key <? 1024) && (Z.of_nat j =? key)); [|reflexivity].
      destruct (action =? GLFW_PRESS); [reflexivity|].
      destruct (action =? GLFW_RELEASE); reflexivity.
Qed.

(** X2: over any sequence of key events on a 1024-entry held-key vector,
    the callback never fails; the vector keeps 1024 entries, and entry [j]
    ends as the last press (true) or release (false) of key [j], or keeps its
    value when there is none; the window is asked to close iff it already was
    or an Escape press occurs. *)
Theorem key_events_held_vector (v : list bool) (Hlen : List.length v = 1024%nat)
  (should_close : bool) (evs : list (Z * Z)) :
  exists v',
    key_events should_close (Some v) evs =
      Ok (should_close || has_escape_press evs, Some v') /\
    List.length v' = 1024%nat /\
    forall j : nat,
      nth j v' false =
        match last_key_state j evs with Some b => b | None => nth j v false end.
Proof. exact (key_events_spec v Hlen should_close evs). Qed.

Lemma key_events_held_vector_witness :
  List.length (held_keys []) = 1024%nat /\
  exists v',
    key_events false (Some (held_keys [])) [(GLFW_KEY_W, GLFW_PRESS); (1024, GLFW_PRESS)] =
      Ok (false || has_escape_press [(GLFW_KEY_W, GLFW_PRESS); (1024, GLFW_PRESS)], Some v') /\
    List.length v' = 1024%nat /\
    forall j : nat,
      nth j v' false =
        match last_key_state j [(GLFW_KEY_W, GLFW_PRESS); (1024, GLFW_PRESS)] with
        | Some b => b | None => nth j (held_keys []) false end.
Proof.
  split; [reflexivity|].
  exact (key_events_held_vector (held_keys []) eq_refl false
           [(GLFW_KEY_W, GLFW_PRESS); (1024, GLFW_PRESS)]).
Defined.

(** ** UpdateCameraPose *)

Lemma UpdateCameraPose_spec (v : list bool) (Hlen : (88 <= List.length v)%nat) :
  UpdateCameraPose (Some v) =
    Ok ((if nth 87 v false then [MoveFront] else []) ++
        (if nth 83 v false then [MoveBack] else []) ++
        (if nth 65 v false then [MoveLeft] else []) ++
        (if nth 68 v false then [MoveRight] else [])).
Proof.
  unfold UpdateCameraPose, if_held, deref; simpl obind.
  unfold GLFW_KEY_W, GLFW_KEY_S, GLFW_KEY_A, GLFW_KEY_D.
  rewrite !vector_at_in_range by lia.
  reflexivity.
Qed.

(** X3: on a held-key vector of at least 88 entries, UpdateCameraPose never
    fails and makes one Move call per held movement key, in the order W
    (MoveFront), S (MoveBack), A (MoveLeft), D (MoveRight); no other entry of
    the vector matters. *)
Theorem UpdateCameraPose_calls (v : list bool) (Hlen : (88 <= List.length v)%nat) :
  UpdateCameraPose (Some v) =
    Ok ((if nth 87 v false then [MoveFront] else []) ++
        (if nth 83 v false then [MoveBack] else []) ++
        (if nth 65 v false then [MoveLeft] else []) ++
        (if nth 68 v false then [MoveRight] else [])).
Proof. exact (UpdateCameraPose_spec v Hlen). Qed.

Lemma UpdateCameraPose_calls_witness :
  (88 <= List.length (held_keys [GLFW_KEY_S; GLFW_KEY_D]))%nat /\
  UpdateCameraPose (Some (held_keys [GLFW_KEY_S; GLFW_KEY_D])) =
    Ok ((if nth 87 (held_keys [GLFW_KEY_S; GLFW_KEY_D]) false then [MoveFront] else []) ++
        (if nth 83 (held_keys [GLFW_KEY_S; GLFW_KEY_D]) false then [MoveBack] else []) ++
        (if nth 65 (held_keys [GLFW_KEY_S; GLFW_KEY_D]) false then [MoveLeft] else []) ++
        (if nth 68 (held_keys [GLFW_KEY_S; GLFW_KEY_D]) false then [MoveRight] else [])).
Proof.
  assert (H : (88 <= List.length (held_keys [GLFW_KEY_S; GLFW_KEY_D]))%nat)
    by (vm_compute; lia).
  split; [exact H|].
  exact (UpdateCameraPose_calls (held_keys [GLFW_KEY_S; GLFW_KEY_D]) H).
Defined.

(** X4: UpdateCameraPose fails when [movement_vector_ptr] is null (a null
    dereference, as in [main], which never sets the pointer), and throws
    [std::out_of_range] from its first [at] (index of W, 87) when the vector
    has at most 87 entries. *)
Theorem UpdateCameraPose_failures :
  UpdateCameraPose None = Throw NullPointer /\
  forall v : list bool, (List.length v <= 87)%nat ->
    UpdateCameraPose (Some v) = Throw OutOfRange.
Proof.
  split; [reflexivity|].
  intros v Hv; unfold UpdateCameraPose, if_held, deref, vector_at; simpl obind.
  replace (GLFW_KEY_W <? Z.of_nat (List.length v)) with false; [reflexivity|].
  symmetry; apply Z.ltb_ge; unfold GLFW_KEY_W; lia.
Qed.

(** ** MouseCallback *)

Lemma MouseCallback_state (sens : Q) (st : mouse_statics) (x y : Q) :
  fst (MouseCallback sens st x y) =
    {| last_x_position := double_to_int x; last_y_position := double_to_int y;
       first_call := false |}.
Proof. unfold MouseCallback; destruct (first_call st) eqn:Hf; simpl; rewrite ?Hf; reflexivity. Qed.

Lemma mouse_events_cons (sens : Q) (st : mouse_statics) (x y : Q) (ps : list (Q * Q)) :
  mouse_events sens st ((x, y) :: ps) =
    (fst (mouse_events sens (fst (MouseCallback sens st x y)) ps),
     snd (MouseCallback sens st x y) ++
     snd (mouse_events sens (fst (MouseCallback sens st x y)) ps)).
Proof.
  change (mouse_events sens st ((x, y) :: ps)) with
    (let '(st1, c1) := MouseCallback sens st x y in
     let '(st2, c2) := mouse_events sens st1 ps in (st2, c1 ++ c2)).
  destruct (MouseCallback sens st x y) as [st1 c1]; cbn [fst snd].
  destruct (mouse_events sens st1 ps); reflexivity.
Qed.

Lemma last_cons_default {A} (a : A) (l : list A) (d d' : A) :
  last (a :: l) d = last (a :: l) d'.
Proof.
  revert a; induction l as [|b l IH]; intros a; [reflexivity|].
  change (last (b :: l) d = last (b :: l) d'); apply IH.
Qed.

Lemma mouse_events_last_state (sens : Q) (st : mouse_statics) (x y : Q) (ps : list (Q * Q)) :
  fst (mouse_events sens st ((x, y) :: ps)) =
    {| last_x_position := double_to_int (fst (last ((x, y) :: ps) (x, y)));
       last_y_position := double_to_int (snd (last ((x, y) :: ps) (x, y)));
       first_call := false |}.
Proof.
  revert st x y; induction ps as [|[x' y'] ps IH]; intros st x y.
  - rewrite mouse_events_cons; cbn [mouse_events fst]; apply MouseCallback_state.
  - rewrite mouse_events_cons; cbn [fst]; rewrite IH.
    rewrite (last_cons_default (x', y') ps (x', y') (x, y)); reflexivity.
Qed.

(** X5: after one or more cursor events, from any state, the callback's
    statics hold [first_call = false] and the last cursor position truncated
    toward zero to [int]s. *)
Theorem MouseCallback_statics_after_events (sens : Q) (st : mouse_statics) (x y : Q)
  (ps : list (Q * Q)) :
  first_call (fst (mouse_events sens st ((x, y) :: ps))) = false /\
  last_x_position (fst (mouse_events sens st ((x, y) :: ps))) =
    double_to_int (fst (last ((x, y) :: ps) (x, y))) /\
  last_y_position (fst (mouse_events sens st ((x, y) :: ps))) =
    double_to_int (snd (last ((x, y) :: ps) (x, y))).
Proof. rewrite mouse_events_last_state; auto. Qed.

Section TruncationBounds.
Local Open Scope Q_scope.

Lemma double_to_int_bound (d : Q) : Qabs (d - inject_Z (double_to_int d)) <= 1.
Proof.
  apply Qabs_Qle_condition; unfold double_to_int.
  destruct (Qle_bool 0 d).
  - pose proof (Qfloor_le d) as H1; pose proof (Qlt_floor d) as H2.
    rewrite inject_Z_plus in H2; change (inject_Z 1) with 1 in H2.
    split; lra.
  - pose proof (Qle_ceiling d) as H1; pose proof (Qceiling_lt d) as H2.
    replace (Qceiling d - 1)%Z with (Qceiling d + -1)%Z in H2 by ring.
    rewrite inject_Z_plus in H2; change (inject_Z (-1)) with (-1) in H2.
    split; lra.
Qed.

Lemma Qabs_scaled_bound (s d : Q) : Qabs d <= 1 -> Qabs (s * d) <= Qabs s.
Proof.
  intros H; rewrite Qabs_Qmult.
  setoid_replace (Qabs s) with (Qabs s * 1) at 2 by ring.
  rewrite (Qmult_comm (Qabs s) (Qabs d)), (Qmult_comm (Qabs s) 1).
  apply Qmult_le_compat_r; [exact H | apply Qabs_nonneg].
Qed.

(** X6: the first cursor event seeds the statics from the event's own
    position, so the yaw and pitch offsets it feeds to the camera controller
    are at most one sensitivity unit in magnitude, whatever the position. *)
Theorem MouseCallback_first_call_bounded (sens x y : Q) :
  match snd (MouseCallback sens mouse_statics_init x y) with
  | [AddYawOffset yaw; AddPitchOffset pitch] =>
      Qabs yaw <= Qabs sens /\ Qabs pitch <= Qabs sens
  | _ => False
  end.
Proof.
  unfold MouseCallback, mouse_statics_init.
  cbn [first_call last_x_position last_y_position snd].
  split; apply Qabs_scaled_bound; [apply double_to_int_bound|].
  setoid_replace (inject_Z (double_to_int y) - y) with (- (y - inject_Z (double_to_int y)))
    by ring.
  rewrite Qabs_opp; apply double_to_int_bound.
Qed.








End TruncationBounds.

(** ** Resources and counts over a run of [main] *)

Lemma count_events_app (p : event -> bool) (a b : list event) :
  count_events p (a ++ b) = (count_events p a + count_events p b)%nat.
Proof. unfold count_events; now rewrite filter_app, length_app. Qed.

Lemma count_events_concat_repeat (p : event -> bool) (l : list event) (n : nat) :
  count_events p (List.concat (repeat l n)) = (n * count_events p l)%nat.
Proof.
  induction n as [|n IH]; [reflexivity|].
  simpl repeat; simpl List.concat; rewrite count_events_app, IH; lia.
Qed.

Lemma count_events_outside_loop (p : event -> bool) (l : list event) :
  (forall ev, In ev l -> is_loop_event ev = false) ->
  (forall ev, p ev = true -> is_loop_event ev = true) ->
  count_events p l = 0%nat.
Proof.
  intros Hl Hp; unfold count_events.
  induction l as [|ev l IH]; [reflexivity|]; simpl.
  destruct (p ev) eqn:He.
  - apply Hp in He; rewrite (Hl ev (or_introl eq_refl)) in He; discriminate.
  - apply IH; intros ev' H; apply Hl; right; exact H.
Qed.

(** X8: in a run where initialisation succeeds, the frame is presented and
    events are polled exactly once per loop iteration that starts, and
    exactly two draw calls (one per model) are issued per iteration. *)
Theorem main_counts_per_frame (e : env) (Hok : init_ok e = true) :
  count_events is_swap (snd (main e)) = frames_run e /\
  count_events is_poll (snd (main e)) = frames_run e /\
  count_events is_draw (snd (main e)) = (2 * frames_run e)%nat.
Proof.
  destruct (main_init_ok_shape e Hok) as (pre & post & Hm & Hpre & Hpost).
  rewrite Hm; simpl snd.
  rewrite !count_events_app, !count_events_concat_repeat, main_frame_unfold.
  rewrite !(count_events_outside_loop _ pre Hpre), !(count_events_outside_loop _ post Hpost)
    by (intros [] H; try discriminate; reflexivity).
  cbn; lia.
Qed.

Lemma main_counts_per_frame_witness :
  init_ok (sample_env [] 3) = true /\
  count_events is_swap (snd (main (sample_env [] 3))) = 3%nat /\
  count_events is_poll (snd (main (sample_env [] 3))) = 3%nat /\
  count_events is_draw (snd (main (sample_env [] 3))) = 6%nat.
Proof.
  split; [reflexivity|].
  exact (main_counts_per_frame (sample_env [] 3) eq_refl).
Defined.

(** X9: in a run where GLFW initialises but a later step fails, GLFW is
    terminated iff the failing step is GLEW.  A failing window creation is
    reported to [ErrorCallback], which logs GLFW's description as fatal and
    aborts the process before [main]'s own [glfwTerminate]; when GLEW or the
    shader program fails, [main] returns -1, in the shader case without
    terminating GLFW.  No failing run destroys the window. *)
Theorem main_failure_teardown (e : env) (Hglfw : glfw_init_ok e = true)
  (Hfail : init_ok e = false) :
  (In EvGlfwTerminate (snd (main e)) <-> (window_ok e = true /\ glew_ok e = false)) /\
  (window_ok e = false ->
     fst (main e) = Killed SIGABRT /\
     last (snd (main e)) EvGlfwInit = EvLogFatal (snd (window_error e))) /\
  (window_ok e = true -> fst (main e) = Returned (-1)) /\
  ~ In EvDestroyWindow (snd (main e)).
Proof.
  destruct e as [cmd g w [code desc] gl s id tn n keys]; unfold init_ok in Hfail;
    simpl in Hglfw, Hfail |- *.
  subst g; destruct w, gl, s; simpl in Hfail; try discriminate; unfold main; simpl.
  all: split; [split|split; [|split]].
  all: try (intros H; discriminate H).
  all: try (intros _; split; reflexivity).
  all: try (intros _; reflexivity).
  all: first
    [ intros H; solve [ split; reflexivity
                      | repeat destruct H as [H|H]; try discriminate; contradiction ]
    | intros [H1 H2]; try discriminate; find_in ].
Qed.

Lemma main_failure_teardown_witness :
  glfw_init_ok window_failure_env = true /\ init_ok window_failure_env = false /\
  ~ In EvGlfwTerminate (snd (main window_failure_env)) /\
  fst (main window_failure_env) = Killed SIGABRT.
Proof.
  pose proof (main_failure_teardown window_failure_env eq_refl eq_refl) as (Hiff & Hwin & _ & _).
  split; [reflexivity|]; split; [reflexivity|]; split.
  - intros H; destruct (proj1 Hiff H) as [Hw _]; discriminate Hw.
  - exact (proj1 (Hwin eq_refl)).
Defined.

(** X10: in a run where initialisation succeeds, each of the two models is
    uploaded exactly once, and no other model index is uploaded.  The models
    are released once each when [main] returns, and never when a key
    callback kills the process; no other model index is released. *)
Theorem main_models_uploaded_and_deleted_once (e : env) (Hok : init_ok e = true) (i : nat) :
  count_events (is_upload i) (snd (main e)) = (if Nat.ltb i 2 then 1 else 0)%nat /\
  count_events (is_delete i) (snd (main e)) =
    (if Nat.ltb i 2 then match fst (main e) with Returned _ => 1 | Killed _ => 0 end
     else 0)%nat.
Proof.
  rewrite (main_init_ok_eq e Hok); generalize (frames_run e); intros k.
  destruct (existsb _ _); cbn [fst snd]; rewrite ?count_events_app;
    repeat rewrite count_events_concat_repeat; rewrite main_frame_unfold;
    unfold main_prefix, main_teardown; destruct i as [|[|i]]; cbn; split; lia.
Qed.

Lemma main_models_uploaded_and_deleted_once_witness :
  init_ok escape_env = true /\
  count_events (is_upload 1) (snd (main escape_env)) = 1%nat /\
  count_events (is_delete 1) (snd (main escape_env)) = 0%nat.
Proof.
  split; [reflexivity|].
  exact (main_models_uploaded_and_deleted_once escape_env eq_refl 1).
Defined.

(** ** Key events followed by a frame's camera update *)

(** X11: after any sequence of key events on a 1024-entry held-key vector,
    the next UpdateCameraPose makes MoveFront, MoveBack, MoveLeft and
    MoveRight, in that order, for exactly those of W, S, A, D whose last
    press or release was a press (or, with no such event, that were held
    before). *)
Theorem key_events_then_UpdateCameraPose (v : list bool) (Hlen : List.length v = 1024%nat)
  (should_close : bool) (evs : list (Z * Z)) :
  exists v',
    key_events should_close (Some v) evs =
      Ok (should_close || has_escape_press evs, Some v') /\
    UpdateCameraPose (Some v') =
      Ok ((if held_after v evs 87 then [MoveFront] else []) ++
          (if held_after v evs 83 then [MoveBack] else []) ++
          (if held_after v evs 65 then [MoveLeft] else []) ++
          (if held_after v evs 68 then [MoveRight] else [])).
Proof.
  destruct (key_events_spec v Hlen should_close evs) as (v' & Hk & Hl & Hn).
  exists v'; split; [exact Hk|].
  rewrite UpdateCameraPose_spec by lia.
  unfold held_after; rewrite !Hn; reflexivity.
Qed.

Lemma key_events_then_UpdateCameraPose_witness :
  List.length (held_keys []) = 1024%nat /\
  exists v',
    key_events false (Some (held_keys []))
      [(GLFW_KEY_W, GLFW_PRESS); (GLFW_KEY_D, GLFW_PRESS); (GLFW_KEY_W, GLFW_RELEASE)] =
      Ok (false || has_escape_press
             [(GLFW_KEY_W, GLFW_PRESS); (GLFW_KEY_D, GLFW_PRESS); (GLFW_KEY_W, GLFW_RELEASE)],
          Some v') /\
    UpdateCameraPose (Some v') =
      Ok ((if held_after (held_keys [])
               [(GLFW_KEY_W, GLFW_PRESS); (GLFW_KEY_D, GLFW_PRESS); (GLFW_KEY_W, GLFW_RELEASE)] 87
           then [MoveFront] else []) ++
          (if held_after (held_keys [])
               [(GLFW_KEY_W, GLFW_PRESS); (GLFW_KEY_D, GLFW_PRESS); (GLFW_KEY_W, GLFW_RELEASE)] 83
           then [MoveBack] else []) ++
          (if held_after (held_keys [])
               [(GLFW_KEY_W, GLFW_PRESS); (GLFW_KEY_D, GLFW_PRESS); (GLFW_KEY_W, GLFW_RELEASE)] 65
           then [MoveLeft] else []) ++
          (if held_after (held_keys [])
               [(GLFW_KEY_W, GLFW_PRESS); (GLFW_KEY_D, GLFW_PRESS); (GLFW_KEY_W, GLFW_RELEASE)] 68
           then [MoveRight] else [])).
Proof.
  split; [reflexivity|].
  exact (key_events_then_UpdateCameraPose (held_keys []) eq_refl false
           [(GLFW_KEY_W, GLFW_PRESS); (GLFW_KEY_D, GLFW_PRESS); (GLFW_KEY_W, GLFW_RELEASE)]).
Defined.

(** ** The pyramid model *)

(** X12: unlike the cube's, the pyramid's vertex matrix (8 rows, 5 columns)
    has every entry assigned by ConstructModels, and its index list consists
    of whole triangles whose indices all name one of those 5 columns. *)
Theorem pyramid_vertices_fully_assigned :
  model_vertices pyramid = pyramid_vertices /\
  List.length pyramid_vertices = 5%nat /\
  (forall r c, (r < 8)%nat -> (c < 5)%nat -> entry pyramid_vertices r c <> None) /\
  (List.length (model_indices pyramid) mod 3 = 0)%nat /\
  (forall i, In i (model_indices pyramid) -> 0 <= i < 5).
Proof.
  split; [reflexivity|]; split; [reflexivity|]; split.
  - assert (Hall : forallb (fun c => forallb (fun r =>
                     match entry pyramid_vertices r c with Some _ => true | None => false end)
                     (seq 0 8)) (seq 0 5) = true) by (vm_compute; reflexivity).
    intros r c Hr Hc.
    rewrite forallb_forall in Hall.
    specialize (Hall c (proj2 (in_seq 5 0 c) (conj (Nat.le_0_l c) Hc))).
    rewrite forallb_forall in Hall.
    specialize (Hall r (proj2 (in_seq 8 0 r) (conj (Nat.le_0_l r) Hr))).
    destruct (entry pyramid_vertices r c); [discriminate | discriminate Hall].
  - split; [reflexivity|].
    intros i Hi; simpl in Hi; repeat destruct Hi as [Hi|Hi]; subst; try lia; contradiction.
Qed.

(** ** How a run of [main] ends once initialisation succeeds *)

Lemma concat_repeat_S {A} (l : list A) (k : nat) :
  List.concat (repeat l (S k)) = List.concat (repeat l k) ++ l.
Proof.
  change (repeat l (S k)) with (l :: repeat l k).
  rewrite repeat_cons, concat_app; simpl; rewrite app_nil_r; reflexivity.
Qed.

(** X13: once initialisation succeeds, if the first press or release of a
    key in [0, 1024) arrives in poll [k], before the window is asked to
    close, the process is killed by [SIGSEGV] inside that poll: exactly
    [k + 1] iterations start, the run ends with the poll, and the models are
    never released, the window never destroyed and GLFW never terminated. *)
Theorem main_key_press_kills_run (e : env) (Hok : init_ok e = true) (k : nat)
  (Hk : (k < frames_before_close e)%nat)
  (Hbefore : forall j, (j < k)%nat -> existsb key_is_recorded (nth j (key_input e) []) = false)
  (Hpress : existsb key_is_recorded (nth k (key_input e) []) = true) :
  fst (main e) = Killed SIGSEGV /\ frames_run e = S k /\
  last (snd (main e)) EvGlfwInit = EvPollEvents /\
  ~ In EvDestroyWindow (snd (main e)) /\ ~ In EvGlfwTerminate (snd (main e)) /\
  (forall i, ~ In (EvDeleteModel i) (snd (main e))).
Proof.
  destruct (loop_frames_null_first _ _ _ Hk Hbefore Hpress) as [Hn Hex].
  assert (Hrun : frames_run e = S k) by exact Hn.
  rewrite (main_init_ok_eq e Hok), Hex, Hrun; cbn [fst snd].
  assert (Hnot : forall ev, is_loop_event ev = false ->
                 (forall x, In x (main_prefix e) -> x <> ev) ->
                 ~ In ev (main_prefix e ++ List.concat (repeat (main_frame e) (S k)))).
  { intros ev Hev Hpre H; apply in_app_or in H as [H|H].
    - exact (Hpre ev H eq_refl).
    - apply in_concat_repeat in H; rewrite main_frame_unfold in H.
      simpl in H; repeat destruct H as [H|H]; subst; try discriminate; contradiction. }
  split; [reflexivity|]; split; [reflexivity|]; split.
  - rewrite concat_repeat_S, main_frame_unfold, app_assoc.
    match goal with |- last (?l ++ _) _ = _ => generalize l; intros pre end.
    change [EvEnableDepthTest; EvClearColor; EvClear; EvUseProgram (Zpos (shader_id e));
            EvPolygonMode GL_LINE;
            EvDraw 0 projection Mat4Identity (fst (texture_names e));
            EvDraw 1 projection Mat4Identity (snd (texture_names e));
            EvBindVertexArray 0; EvSwapBuffers; EvPollEvents]
      with ([EvEnableDepthTest; EvClearColor; EvClear; EvUseProgram (Zpos (shader_id e));
             EvPolygonMode GL_LINE;
             EvDraw 0 projection Mat4Identity (fst (texture_names e));
             EvDraw 1 projection Mat4Identity (snd (texture_names e));
             EvBindVertexArray 0; EvSwapBuffers] ++ [EvPollEvents]).
    rewrite app_assoc; apply last_last.
  - split; [|split; [|intros i]]; apply Hnot; try reflexivity;
      intros x Hx; simpl in Hx; repeat destruct Hx as [Hx|Hx]; subst; try discriminate;
      contradiction.
Qed.

Lemma main_key_press_kills_run_witness :
  init_ok escape_env = true /\ (0 < frames_before_close escape_env)%nat /\
  existsb key_is_recorded (nth 0 (key_input escape_env) []) = true /\
  fst (main escape_env) = Killed SIGSEGV /\ frames_run escape_env = 1%nat.
Proof.
  assert (Hk : (0 < frames_before_close escape_env)%nat) by (simpl; lia).
  assert (Hbefore : forall j, (j < 0)%nat ->
            existsb key_is_recorded (nth j (key_input escape_env) []) = false)
    by (intros j Hj; lia).
  destruct (main_key_press_kills_run escape_env eq_refl 0 Hk Hbefore eq_refl)
    as (Hkill & Hrun & _).
  split; [reflexivity|]; split; [exact Hk|]; split; [reflexivity|].
  split; [exact Hkill | exact Hrun].
Defined.

(** X14: once initialisation succeeds, if no poll before the window is
    asked to close delivers a press or release of a key in [0, 1024), every
    one of those iterations runs, [main] returns 0, and the run ends by
    releasing the two models, destroying the window and terminating GLFW. *)
Theorem main_closes_without_recorded_keys (e : env) (Hok : init_ok e = true)
  (Hkeys : forall j, (j < frames_before_close e)%nat ->
           existsb key_is_recorded (nth j (key_input e) []) = false) :
  fst (main e) = Returned 0 /\ frames_run e = frames_before_close e /\
  exists pre,
    snd (main e) = pre ++ [EvDeleteModel 0; EvDeleteModel 1; EvDestroyWindow; EvGlfwTerminate].
Proof.
  apply firstn_recorded_false in Hkeys.
  rewrite (main_init_ok_eq e Hok), Hkeys; cbn [fst snd].
  split; [reflexivity|]; split.
  - exact (loop_frames_null_none _ _ Hkeys).
  - exists (main_prefix e ++ List.concat (repeat (main_frame e) (frames_run e))).
    rewrite <- app_assoc; reflexivity.
Qed.

Lemma main_closes_without_recorded_keys_witness :
  init_ok unknown_key_env = true /\
  fst (main unknown_key_env) = Returned 0 /\ frames_run unknown_key_env = 2%nat.
Proof.
  assert (Hkeys : forall j, (j < frames_before_close unknown_key_env)%nat ->
            existsb key_is_recorded (nth j (key_input unknown_key_env) []) = false)
    by (intros [|[|j]] Hj; simpl in Hj; try reflexivity; lia).
  destruct (main_closes_without_recorded_keys unknown_key_env eq_refl Hkeys)
    as (Hret & Hrun & _).
  split; [reflexivity|]; split; [exact Hret | exact Hrun].
Defined.
